(** * lightpath.ui.widgets: device rows of the light path display

    A shallow embedding of [lightpath/ui/widgets.py].  The rows of the list
    view are Qt widgets bound to live device objects; what the module itself
    decides is which text, colour, icon and button enablement a row shows for
    a device state, and what happens when a call into the device layer or
    into the icon library raises.

    The embedding keeps the shape of the Python code:
    - Python exceptions are an explicit [Raise] outcome, [try]/[except] is a
      combinator, and every method is a computation over the logging output,
      the callbacks registered on the device, and the widget [self];
    - the enumeration [DeviceState] and the function [find_device_state] are
      imported by the module from [lightpath.path]; the enumeration is
      rendered from its written description, and the widget code is
      parametric in [find_device_state];
    - the icon library [qtawesome] is a parameter of the widget code. *)

From Stdlib Require Import String Ascii List ZArith Bool Lia.
From Stdlib Require Import Decimal DecimalString DecimalPos.
Import ListNotations.

Local Open Scope string_scope.
Local Open Scope Z_scope.

(* ================================================================== *)
(** ** Python values the module relies on *)

(** The exceptions that occur in the module.  All of them are instances
    of Python's [Exception], the class every handler of the module names
    ([AttributeError] is a subclass of it). *)
Inductive Exception : Type :=
| AttributeError (attr : string)
| IndexError
| Raised (cls : string) (text : string).

(** Outcome of evaluating a Python expression or statement. *)
Inductive result (A : Type) : Type :=
| Return (a : A)
| Raise (e : Exception).

Arguments Return {A} a.
Arguments Raise {A} e.

(** [repr] of a Python [int]. *)
Definition repr_int (z : Z) : string :=
  NilZero.string_of_int (Z.to_int z).

(** [l[i]] on a Python list: a negative index counts from the end, an
    index outside the list raises [IndexError]. *)
Definition getitem {A : Type} (l : list A) (i : Z) : result A :=
  let n := Z.of_nat (length l) in
  let j := if i <? 0 then i + n else i in
  if (0 <=? j) && (j <? n) then
    match nth_error l (Z.to_nat j) with
    | Some a => Return a
    | None => Raise IndexError
    end
  else Raise IndexError.

(** [QColor(r, g, b)] as this module reads it: through the accessors
    [red()], [green()] and [blue()] only.  The alpha channel and the
    validity of a color are never read here and are not part of the
    record, so two values of this type are the same when their three
    components are, which says nothing about the rest of a Qt color. *)
Record QColor : Type := mkQColor { red : Z; green : Z; blue : Z }.

(* ================================================================== *)
(** ** lightpath.path.DeviceState *)

Module DeviceState.

(** Modelled from the spec: the enumeration [DeviceState] is declared in
    [lightpath/path.py], which the module imports.  Its members, their
    ordinals and their display names are the ones of the data model:
    Removed(0), Inserted(1), Unknown(2), Disconnected(3),
    PartiallyInserted(4, shown as "Disconnected"), Error(5). *)
Inductive t : Type :=
| Removed
| Inserted
| Unknown
| Disconnected
| PartiallyInserted
| Error.

(** Modelled from the spec: the ordinal of a member ([.value]). *)
Definition value (s : t) : Z :=
  match s with
  | Removed => 0
  | Inserted => 1
  | Unknown => 2
  | Disconnected => 3
  | PartiallyInserted => 4
  | Error => 5
  end.

(** Modelled from the spec: the display name of a member ([.name]);
    "Disconnected" is used for both [Disconnected] and
    [PartiallyInserted]. *)
Definition name (s : t) : string :=
  match s with
  | Removed => "Removed"
  | Inserted => "Inserted"
  | Unknown => "Unknown"
  | Disconnected => "Disconnected"
  | PartiallyInserted => "Disconnected"
  | Error => "Error"
  end.

(** The members in declaration order, as iterating the enumeration
    yields them. *)
Definition members : list t :=
  [Removed; Inserted; Unknown; Disconnected; PartiallyInserted; Error].

(** [a == b] on members: identity. *)
Definition eqb (a b : t) : bool :=
  match a, b with
  | Removed, Removed
  | Inserted, Inserted
  | Unknown, Unknown
  | Disconnected, Disconnected
  | PartiallyInserted, PartiallyInserted
  | Error, Error => true
  | _, _ => false
  end.

(** [a != b]. *)
Definition neqb (a b : t) : bool := negb (eqb a b).

End DeviceState.

(* ================================================================== *)
(** ** The device objects the widgets are bound to *)

(** What calling a method of the device does, as far as the widget can
    observe it. *)
Inductive Call : Type :=
| Returns
| Raises (e : Exception).

(** Reading one of the two position signals of a device. *)
Inductive Reading : Type :=
| Unreadable (e : Exception)
| Value (v : option bool).

Module Device.

(** A device as the widgets use it.  An attribute that a device may lack
    is an [option]: [None] is "no such attribute".  [name] and [prefix]
    belong to every device. *)
Record t : Type := mk {
  name : string;
  prefix : string;
  _icon : option string;
  inserted : option Reading;
  removed : option Reading;
  insert : option Call;
  remove : option Call;
  SUB_STATE : option string;
  subscribe : option (string -> Call)
}.

End Device.

(* ================================================================== *)
(** ** lightpath.path.find_device_state *)

Module path.

Import DeviceState.

(** Modelled from the spec: the classifier of [lightpath/path.py], on
    the two signals once they are read.  The rules are tried in the
    order of the decision table: a signal without a value gives
    [Disconnected]; both set is contradictory, [Error]; then
    [Inserted], [Removed], and [Unknown] for neither. *)
Definition classify (inserted removed : option bool) : t :=
  match inserted, removed with
  | None, _ => Disconnected
  | _, None => Disconnected
  | Some i, Some r =>
      if i && r then Error
      else if i && negb r then Inserted
      else if negb i && r then Removed
      else Unknown
  end.

(** Modelled from the spec: reading one signal for the classifier.  A
    device that lacks the signal altogether is treated like one whose
    signal has no value. *)
Definition read_signal (s : option Reading) : result (option bool) :=
  match s with
  | None => Return None
  | Some (Value v) => Return v
  | Some (Unreadable e) => Raise e
  end.

(** Modelled from the spec: [find_device_state] of [lightpath/path.py].
    A read that raises is classified as [Error] before anything else;
    otherwise the two values are classified. *)
Definition find_device_state (device : Device.t) : t :=
  match read_signal (Device.inserted device),
        read_signal (Device.removed device) with
  | Return i, Return r => classify i r
  | _, _ => Error
  end.

End path.


(* ================================================================== *)
(** ** Logging, the device's callback registry, and computations *)

Inductive Level : Type := DEBUG | INFO | ERROR.

(** The first argument of a logging call: a format string, or an
    exception object handed over as it is. *)
Inductive Message : Type :=
| Format (fmt : string)
| Object (e : Exception).

(** A record as [logging] keeps it: the message and its arguments are
    stored apart.  [exc_info] is the exception under handling that
    [logger.exception] attaches. *)
Record LogRecord : Type := mkLogRecord {
  levelname : Level;
  msg : Message;
  args : list string;
  exc_info : option Exception
}.

(** The callbacks this module hands to a device. *)
Inductive Callback : Type := LightRow_update_state.

(** A registration made through [device.subscribe]. *)
Record Subscription : Type := mkSubscription {
  sub_callback : Callback;
  sub_event_type : string;
  sub_run : bool
}.

(** What the module changes besides the widget itself. *)
Record World : Type := mkWorld {
  log : list LogRecord;
  subscriptions : list Subscription
}.

(** A statement run on the object [self]: it returns or raises, and
    leaves the world and [self] as they were at that point. *)
Record Outcome (Self A : Type) : Type := mkOutcome {
  res : result A;
  world : World;
  self : Self
}.

Arguments mkOutcome {Self A} res world self.
Arguments res {Self A} o.
Arguments world {Self A} o.
Arguments self {Self A} o.

Definition M (Self A : Type) : Type := World -> Self -> Outcome Self A.

Definition ret {S A : Type} (a : A) : M S A :=
  fun w s => mkOutcome (Return a) w s.

Definition raise {S A : Type} (e : Exception) : M S A :=
  fun w s => mkOutcome (Raise e) w s.

Definition bind {S A B : Type} (m : M S A) (k : A -> M S B) : M S B :=
  fun w s =>
    let o := m w s in
    match res o with
    | Return a => k a (world o) (self o)
    | Raise e => mkOutcome (Raise e) (world o) (self o)
    end.

Declare Scope py_scope.
Delimit Scope py_scope with py.
Notation "x <- m ;; k" := (bind m (fun x => k))
  (at level 61, m at next level, right associativity) : py_scope.
Notation "m ;; k" := (bind m (fun _ => k))
  (at level 61, right associativity) : py_scope.
Local Open Scope py_scope.

(** An expression whose value or exception is already known. *)
Definition lift {S A : Type} (r : result A) : M S A :=
  match r with
  | Return a => ret a
  | Raise e => raise e
  end.

(** [try: body  except <class>: handler]; [catches] decides whether an
    exception is an instance of the class. *)
Definition try_except {S A : Type} (body : M S A)
    (catches : Exception -> bool) (handler : Exception -> M S A) : M S A :=
  fun w s =>
    let o := body w s in
    match res o with
    | Return _ => o
    | Raise e => if catches e then handler e (world o) (self o) else o
    end.

(** [except AttributeError]. *)
Definition isinstance_AttributeError (e : Exception) : bool :=
  match e with
  | AttributeError _ => true
  | _ => false
  end.

(** [except Exception]. *)
Definition isinstance_Exception (e : Exception) : bool := true.

(** Reading and assigning attributes of [self]. *)
Definition gets {S A : Type} (f : S -> A) : M S A :=
  fun w s => mkOutcome (Return (f s)) w s.

Definition modify {S : Type} (f : S -> S) : M S unit :=
  fun w s => mkOutcome (Return tt) w (f s).

(** Run a method of another object [t]; [self] is untouched and the
    object is handed back as the method left it. *)
Definition on_object {S T A : Type} (t : T) (m : M T A) : M S (A * T) :=
  fun w s =>
    let o := m w t in
    match res o with
    | Return a => mkOutcome (Return (a, self o)) (world o) s
    | Raise e => mkOutcome (Raise e) (world o) s
    end.

(** A call on the module's [logger]. *)
Definition logger_call {S : Type} (r : LogRecord) : M S unit :=
  fun w s => mkOutcome (Return tt) (mkWorld (log w ++ [r]) (subscriptions w)) s.

Definition logger_debug {S : Type} (fmt : string) (a : list string) : M S unit :=
  logger_call (mkLogRecord DEBUG (Format fmt) a None).

Definition logger_info {S : Type} (fmt : string) (a : list string) : M S unit :=
  logger_call (mkLogRecord INFO (Format fmt) a None).

Definition logger_error {S : Type} (m : Message) (a : list string) : M S unit :=
  logger_call (mkLogRecord ERROR m a None).

(** [logger.exception], called from a handler of [exc]. *)
Definition logger_exception {S : Type} (exc : Exception) (fmt : string)
    (a : list string) : M S unit :=
  logger_call (mkLogRecord ERROR (Format fmt) a (Some exc)).

(** [getattr(obj, attr)] for an attribute the object may lack. *)
Definition getattr {S A : Type} (v : option A) (attr : string) : M S A :=
  match v with
  | Some a => ret a
  | None => raise (AttributeError attr)
  end.

(** [hasattr(obj, attr)]. *)
Definition hasattr {A : Type} (v : option A) : bool :=
  match v with
  | Some _ => true
  | None => false
  end.

(** Calling a method of the device whose behaviour is [c]. *)
Definition call {S : Type} (c : Call) : M S unit :=
  match c with
  | Returns => ret tt
  | Raises e => raise e
  end.

(* ================================================================== *)
(** ** lightpath.ui.widgets *)

(** The state colors that correspond to [DeviceState]. *)
Definition state_colors : list QColor :=
  [ mkQColor 124 252 0;    (* Removed *)
    mkQColor 255 0 0;      (* Inserted *)
    mkQColor 255 215 0;    (* Unknown *)
    mkQColor 255 215 0;    (* Disconnected *)
    mkQColor 255 0 255;    (* Disconnected *)
    mkQColor 255 0 255 ].  (* Error *)

(** Utility to convert QColor to stylesheet specification. *)
Definition to_stylesheet_color (color : QColor) : string :=
  "rgb(" ++ repr_int (red color) ++ ", " ++ repr_int (green color)
         ++ ", " ++ repr_int (blue color) ++ ")".

(** Find a symbol for the device: the hidden attribute [_icon], and
    ["fa.square"] if no icon is specified. *)
Definition symbol_for_device {S : Type} (device : Device.t) : M S string :=
  try_except
    (getattr (Device._icon device) "_icon")
    isinstance_AttributeError
    (fun exc =>
       logger_debug "No symbol found %s" [Device.name device] ;;
       ret "fa.square").

(** An icon as [qtawesome] builds it from a symbol name and a color. *)
Record QIcon : Type := mkQIcon { icon_name : string; icon_color : QColor }.

(** [DeviceWidget]: the colored symbol of a row.  [pixmap] is [None]
    until [setPixmap] is called; the pixmap is known by the icon it is
    taken from. *)
Record DeviceWidget : Type := mkDeviceWidget {
  symbol : string;
  minimumSize : Z * Z;
  maximumSize : Z * Z;
  pixmap : option QIcon
}.

Definition setPixmap (icon : QIcon) : M DeviceWidget unit :=
  modify (fun dw => mkDeviceWidget (symbol dw) (minimumSize dw)
                                   (maximumSize dw) (Some icon)).

(** [DeviceWidget.__init__]: the symbol is grabbed, but no icon is
    created until [setColor] is called. *)
Definition DeviceWidget__init__ {S : Type} (device : Device.t)
    : M S DeviceWidget :=
  sym <- symbol_for_device device ;;
  ret (mkDeviceWidget sym (10, 10) (50, 50) None).

(** The two buttons of a row, and the slots of [LightRow] that can be
    connected to their [clicked] signal. *)
Inductive Button : Type := remove_button | insert_button.

Inductive Slot : Type := LightRow_remove | LightRow_insert.

(** A row of the list view.  The labels and buttons come from the
    designer file; a button's [enabled] flag is [None] as long as the
    module has not set it, and [last_state] is [None] as long as it has
    not been assigned. *)
Record Row : Type := mkRow {
  device : Device.t;
  name_label : string;
  prefix_label : string;
  state_label_text : string;
  state_label_styleSheet : string;
  device_drawing : DeviceWidget;
  connections : list (Button * Slot);
  last_state : option DeviceState.t;
  insert_button_enabled : option bool;
  remove_button_enabled : option bool
}.

Definition set_state_label_text (v : string) (r : Row) : Row :=
  mkRow (device r) (name_label r) (prefix_label r) v
        (state_label_styleSheet r) (device_drawing r) (connections r)
        (last_state r) (insert_button_enabled r) (remove_button_enabled r).

Definition set_state_label_styleSheet (v : string) (r : Row) : Row :=
  mkRow (device r) (name_label r) (prefix_label r) (state_label_text r)
        v (device_drawing r) (connections r)
        (last_state r) (insert_button_enabled r) (remove_button_enabled r).

Definition set_device_drawing (v : DeviceWidget) (r : Row) : Row :=
  mkRow (device r) (name_label r) (prefix_label r) (state_label_text r)
        (state_label_styleSheet r) v (connections r)
        (last_state r) (insert_button_enabled r) (remove_button_enabled r).

Definition set_connections (v : list (Button * Slot)) (r : Row) : Row :=
  mkRow (device r) (name_label r) (prefix_label r) (state_label_text r)
        (state_label_styleSheet r) (device_drawing r) v
        (last_state r) (insert_button_enabled r) (remove_button_enabled r).

Definition set_last_state (v : DeviceState.t) (r : Row) : Row :=
  mkRow (device r) (name_label r) (prefix_label r) (state_label_text r)
        (state_label_styleSheet r) (device_drawing r) (connections r)
        (Some v) (insert_button_enabled r) (remove_button_enabled r).

Definition set_insert_button_enabled (v : bool) (r : Row) : Row :=
  mkRow (device r) (name_label r) (prefix_label r) (state_label_text r)
        (state_label_styleSheet r) (device_drawing r) (connections r)
        (last_state r) (Some v) (remove_button_enabled r).

Definition set_remove_button_enabled (v : bool) (r : Row) : Row :=
  mkRow (device r) (name_label r) (prefix_label r) (state_label_text r)
        (state_label_styleSheet r) (device_drawing r) (connections r)
        (last_state r) (insert_button_enabled r) (Some v).

(** [signal.connect(slot)]. *)
Definition connect (b : Button) (s : Slot) : M Row unit :=
  modify (fun r => set_connections (connections r ++ [(b, s)]) r).

(** [InactiveRow.__init__]: the labels are created and, by default, the
    device is marked as Disconnected.  Creating the [DeviceWidget] is the
    only step that can log; the assignments before it in the source
    neither log nor raise, so the row is put together after it. *)
Definition InactiveRow__init__ {S : Type} (device : Device.t) : M S Row :=
  drawing <- DeviceWidget__init__ device ;;
  ret (mkRow device
             (Device.name device)
             ("(" ++ Device.prefix device ++ ")")
             "Disconnected"
             "QLabel {color : rgb(255,0,255)}"
             drawing [] None None None).

Section Widgets.

(** [find_device_state], imported from [lightpath.path]: the state of a
    device is a function of the device as it is when asked. *)
Variable find_device_state : Device.t -> DeviceState.t.

(** [qtawesome.icon(name, color=color)]: the icon, or the exception
    raised while loading it. *)
Variable qta_icon : string -> QColor -> result QIcon.

(** [DeviceWidget.setColor]: set the color of the icon contained in the
    widget.  Any error loading the icon is captured and logged, and the
    method returns there. *)
Definition setColor (color : QColor) : M DeviceWidget unit :=
  sym <- gets symbol ;;
  loaded <- try_except
              (icon <- lift (qta_icon sym color) ;; ret (Some icon))
              isinstance_Exception
              (fun exc =>
                 logger_exception exc "Unable to load icon %r" [sym] ;;
                 ret None) ;;
  match loaded with
  | None => ret tt
  | Some icon => setPixmap icon
  end.

(** The calls of [setColor] a widget receives over its life, one for
    each color in turn. *)
Fixpoint setColor_each (colors : list QColor) : M DeviceWidget unit :=
  match colors with
  | [] => ret tt
  | color :: rest => setColor color ;; setColor_each rest
  end.

(** [self.device_drawing.setColor(color)] from a method of the row. *)
Definition device_drawing_setColor (color : QColor) : M Row unit :=
  drawing <- gets device_drawing ;;
  r <- on_object drawing (setColor color) ;;
  modify (set_device_drawing (snd r)).

(** [LightRow.update_state]: update the state label, its color, the
    drawing, and disable buttons if necessary.  The arguments of the
    notification are not used. *)
Definition update_state : M Row unit :=
  (* Interpret state *)
  dev <- gets device ;;
  modify (set_last_state (find_device_state dev)) ;;
  (* Set label to state description *)
  st <- gets last_state ;;
  st <- getattr st "last_state" ;;
  modify (set_state_label_text (DeviceState.name st)) ;;
  color <- lift (getitem state_colors (DeviceState.value st)) ;;
  let style_color := to_stylesheet_color color in
  modify (set_state_label_styleSheet ("QLabel {color: " ++ style_color ++ "}")) ;;
  device_drawing_setColor color ;;
  (* Disable buttons if necessary *)
  modify (set_insert_button_enabled
            (DeviceState.neqb st DeviceState.Inserted
             && hasattr (Device.insert dev))) ;;
  modify (set_remove_button_enabled
            (DeviceState.neqb st DeviceState.Removed
             && hasattr (Device.remove dev))).

(** [LightRow.remove]: remove the device from the beamline. *)
Definition remove : M Row unit :=
  dev <- gets device ;;
  logger_info "Removing device %s ..." [Device.name dev] ;;
  try_except
    (m <- getattr (Device.remove dev) "remove" ;; call m)
    isinstance_Exception
    (fun exc => logger_error (Object exc) []).

(** [LightRow.insert]: insert the device from the beamline. *)
Definition insert : M Row unit :=
  dev <- gets device ;;
  logger_info "Inserting device %s ..." [Device.name dev] ;;
  try_except
    (m <- getattr (Device.insert dev) "insert" ;; call m)
    isinstance_Exception
    (fun exc => logger_error (Object exc) []).

(** Running a slot, as a click on a connected button does. *)
Definition run_slot (s : Slot) : M Row unit :=
  match s with
  | LightRow_remove => remove
  | LightRow_insert => insert
  end.

(** Running a callback, as the device does for a notification. *)
Definition run_callback (cb : Callback) : M Row unit :=
  match cb with
  | LightRow_update_state => update_state
  end.

(** [device.subscribe(cb, event_type=..., run=...)] on a device whose
    [subscribe] behaves as [f]: when the device accepts, the callback is
    registered, and called at once if [run] is set. *)
Definition subscribe_call (f : string -> Call) (cb : Callback)
    (event_type : string) (run : bool) : M Row unit :=
  call (f event_type) ;;
  (fun w s =>
     mkOutcome (Return tt)
               (mkWorld (log w)
                        (subscriptions w
                         ++ [mkSubscription cb event_type run]))
               s) ;;
  if run then run_callback cb else ret tt.

(** The body of [LightRow.__init__] after [super().__init__]: connect
    up the action buttons and subscribe to state changes, without
    running the callback now. *)
Definition LightRow__init__body : M Row unit :=
  connect remove_button LightRow_remove ;;
  connect insert_button LightRow_insert ;;
  dev <- gets device ;;
  try_except
    (f <- getattr (Device.subscribe dev) "subscribe" ;;
     event_type <- getattr (Device.SUB_STATE dev) "SUB_STATE" ;;
     subscribe_call f LightRow_update_state event_type false)
    isinstance_Exception
    (fun exc =>
       logger_error (Format "Widget is unable to subscribe to device %s")
                    [Device.name dev]).

(** [LightRow.__init__]. *)
Definition LightRow__init__ {S : Type} (device : Device.t) : M S Row :=
  row <- InactiveRow__init__ device ;;
  r <- on_object row LightRow__init__body ;;
  ret (snd r).

End Widgets.

(* ================================================================== *)
(** ** Vocabulary of the properties *)

(** The decimal numbers written in a style sheet, in the order they
    appear.  The sheets of this module name one color, so these are its
    red, green and blue components whatever the spacing is. *)
Definition digit_of (c : ascii) : option Z :=
  let n := Z.of_N (N_of_ascii c) in
  if (48 <=? n) && (n <=? 57) then Some (n - 48) else None.

Fixpoint numbers_from (cur : option Z) (s : string) : list Z :=
  match s with
  | EmptyString =>
      match cur with
      | Some n => [n]
      | None => []
      end
  | String c s' =>
      match digit_of c, cur with
      | Some d, Some n => numbers_from (Some (10 * n + d)) s'
      | Some d, None => numbers_from (Some d) s'
      | None, Some n => n :: numbers_from None s'
      | None, None => numbers_from None s'
      end
  end.

Definition stylesheet_numbers (sheet : string) : list Z :=
  numbers_from None sheet.

(** The state label of the row is shown in the color [c]. *)
Definition shows_color (r : Row) (c : QColor) : Prop :=
  stylesheet_numbers (state_label_styleSheet r) = [red c; green c; blue c].

(** The method of the device that a slot calls. *)
Definition slot_action (s : Slot) (d : Device.t) : option Call :=
  match s with
  | LightRow_remove => Device.remove d
  | LightRow_insert => Device.insert d
  end.

(** The format of the message a slot logs before it calls the device. *)
Definition slot_announcement (s : Slot) : string :=
  match s with
  | LightRow_remove => "Removing device %s ..."
  | LightRow_insert => "Inserting device %s ..."
  end.

(** The event type under which the device accepts a subscription;
    [None] when the device does not support subscription: it has no
    [subscribe], no [SUB_STATE], or [subscribe] raises. *)
Definition subscribable (d : Device.t) : option string :=
  match Device.subscribe d, Device.SUB_STATE d with
  | Some f, Some event_type =>
      match f event_type with
      | Returns => Some event_type
      | Raises _ => None
      end
  | _, _ => None
  end.

(** Appending to the log, and to the registry of callbacks. *)
Definition logged (rs : list LogRecord) (w : World) : World :=
  mkWorld (log w ++ rs) (subscriptions w).

Definition registered (subs : list Subscription) (w : World) : World :=
  mkWorld (log w) (subscriptions w ++ subs).

(** The record [logger.exception] leaves when an icon does not load. *)
Definition icon_failure (sym : string) (e : Exception) : LogRecord :=
  mkLogRecord ERROR (Format "Unable to load icon %r") [sym] (Some e).

(** The row [update_state] leaves for the state [st] shown in [color],
    with the drawing [dw]. *)
Definition reflected (r : Row) (st : DeviceState.t) (color : QColor)
    (dw : DeviceWidget) : Row :=
  mkRow (device r) (name_label r) (prefix_label r)
        (DeviceState.name st)
        ("QLabel {color: " ++ to_stylesheet_color color ++ "}")
        dw (connections r) (Some st)
        (Some (DeviceState.neqb st DeviceState.Inserted
               && hasattr (Device.insert (device r))))
        (Some (DeviceState.neqb st DeviceState.Removed
               && hasattr (Device.remove (device r)))).

(** *** Sample devices and a sample icon library *)

(** An icon library that knows the default symbol only. *)
Definition square_only (symbol_name : string) (color : QColor) : result QIcon :=
  if String.eqb symbol_name "fa.square"
  then Return (mkQIcon symbol_name color)
  else Raise (Raised "Exception" "Invalid font prefix").

(** An inserted stopper with an unknown icon; removing it fails. *)
Definition stopper : Device.t :=
  Device.mk "stopper" "XPP:STP" (Some "xx.stopper")
            (Some (Value (Some true))) (Some (Value (Some false)))
            (Some Returns) (Some (Raises (Raised "RuntimeError" "stuck")))
            (Some "sub_state") (Some (fun _ => Returns)).

(** A device that offers neither an icon nor subscription. *)
Definition bare : Device.t :=
  Device.mk "bare" "XPP:BARE" None None None None None None None.

Definition empty_world : World := mkWorld [] [].

(** The row of the stopper as [LightRow.__init__] leaves it. *)
Definition stopper_row : Row :=
  mkRow stopper "stopper" "(XPP:STP)" "Disconnected"
        "QLabel {color : rgb(255,0,255)}"
        (mkDeviceWidget "xx.stopper" (10, 10) (50, 50) None)
        [(remove_button, LightRow_remove); (insert_button, LightRow_insert)]
        None None None.

(* ================================================================== *)
(** ** The rest of the rows: clicks, teardown, light indicators *)

(** [button.clicked.emit()]: the slots connected to the button run in
    the order they were connected. *)
Definition Button_eqb (a b : Button) : bool :=
  match a, b with
  | remove_button, remove_button
  | insert_button, insert_button => true
  | _, _ => false
  end.

Fixpoint emit_clicked (conns : list (Button * Slot)) (b : Button) : M Row unit :=
  match conns with
  | [] => ret tt
  | (b', s) :: rest =>
      (if Button_eqb b' b then run_slot s else ret tt) ;;
      emit_clicked rest b
  end.

(** The name of the device method a slot calls. *)
Definition slot_method_name (s : Slot) : string :=
  match s with
  | LightRow_remove => "remove"
  | LightRow_insert => "insert"
  end.

(** The announcement of a slot, as a log record. *)
Definition announcement (s : Slot) (d : Device.t) : LogRecord :=
  mkLogRecord INFO (Format (slot_announcement s)) [Device.name d] None.

(** A click of the user on a button of the row. *)
Definition click (b : Button) : M Row unit :=
  conns <- gets connections ;;
  emit_clicked conns b.

(** [InactiveRow.clear_sub]: implemented by rows that have
    subscriptions; here it does nothing. *)
Definition InactiveRow_clear_sub : M Row unit := ret tt.

Section Teardown.

(** The [clear_sub] method of a device, for the devices that have one. *)
Variable device_clear_sub : Device.t -> option Call.

(** [device.clear_sub(cb)] on a device whose method behaves as [c]:
    when it returns, the registrations of the callback are gone. *)
Definition clear_sub_call (c : Call) (cb : Callback) : M Row unit :=
  call c ;;
  (fun w s =>
     mkOutcome (Return tt)
               (mkWorld (log w)
                        (filter (fun sub =>
                                   match sub_callback sub, cb with
                                   | LightRow_update_state,
                                     LightRow_update_state => false
                                   end)
                                (subscriptions w)))
               s).

(** [LightRow.clear_sub]: clear the subscription event.  The call is
    not guarded. *)
Definition LightRow_clear_sub : M Row unit :=
  dev <- gets device ;;
  m <- getattr (device_clear_sub dev) "clear_sub" ;;
  clear_sub_call m LightRow_update_state.

End Teardown.

(** The parts of a row that [condense] hides or spaces: whether the
    device information, the commands and the out indicator are hidden,
    and the spacing of the layout once it has been set. *)
Record Chrome : Type := mkChrome {
  device_information_hidden : bool;
  commands_hidden : bool;
  out_indicator_hidden : bool;
  layout_spacing : option Z
}.

(** [widget.setFixedHeight(h)]: the minimum and the maximum height
    become [h].  Sizes are (width, height). *)
Definition setFixedHeight (h : Z) : M DeviceWidget unit :=
  modify (fun dw => mkDeviceWidget (symbol dw)
                                   (fst (minimumSize dw), h)
                                   (fst (maximumSize dw), h)
                                   (pixmap dw)).

(** [widget.setMaximumWidth(w)]. *)
Definition setMaximumWidth (w : Z) : M DeviceWidget unit :=
  modify (fun dw => mkDeviceWidget (symbol dw)
                                   (minimumSize dw)
                                   (w, snd (maximumSize dw))
                                   (pixmap dw)).

(** A call on [self.device_drawing] from a method of the row. *)
Definition on_device_drawing (m : M DeviceWidget unit) : M Row unit :=
  drawing <- gets device_drawing ;;
  r <- on_object drawing m ;;
  modify (set_device_drawing (snd r)).

(** A statement on the row proper, within the row and its chrome. *)
Definition on_row {A : Type} (m : M Row A) : M (Row * Chrome) A :=
  fun w s =>
    let o := m w (fst s) in
    mkOutcome (res o) (world o) (self o, snd s).

(** [InactiveRow.condense]: reduce the size of the widget when the
    device is hidden. *)
Definition condense : M (Row * Chrome) unit :=
  (* Hide commands and labels *)
  modify (fun s => (fst s, mkChrome true (commands_hidden (snd s))
                                    (out_indicator_hidden (snd s))
                                    (layout_spacing (snd s)))) ;;
  modify (fun s => (fst s, mkChrome (device_information_hidden (snd s)) true
                                    (out_indicator_hidden (snd s))
                                    (layout_spacing (snd s)))) ;;
  (* Resize drawings *)
  modify (fun s => (fst s, mkChrome (device_information_hidden (snd s))
                                    (commands_hidden (snd s)) true
                                    (layout_spacing (snd s)))) ;;
  on_row (on_device_drawing (setFixedHeight 15)) ;;
  on_row (on_device_drawing (setMaximumWidth 15)) ;;
  modify (fun s => (fst s, mkChrome (device_information_hidden (snd s))
                                    (commands_hidden (snd s))
                                    (out_indicator_hidden (snd s))
                                    (Some 1))).

(** The two light indicators of a row, by the color name of their
    brush; [None] as long as [update_light] has not set it. *)
Inductive Indicator : Type := beam_indicator | out_indicator.

Record Indicators : Type := mkIndicators {
  beam_indicator_brush : option string;
  out_indicator_brush : option string
}.

(** [widget.brush = QBrush(QColor(name))]. *)
Definition set_brush (widget : Indicator) (color_name : string)
    : M Indicators unit :=
  modify (fun s =>
            match widget with
            | beam_indicator =>
                mkIndicators (Some color_name) (out_indicator_brush s)
            | out_indicator =>
                mkIndicators (beam_indicator_brush s) (Some color_name)
            end).

(** The body of the loop of [update_light], over the zipped pairs. *)
Fixpoint update_light_loop (pairs : list (Indicator * bool))
    : M Indicators unit :=
  match pairs with
  | [] => ret tt
  | (widget, state) :: rest =>
      (* Set color *)
      (if state then set_brush widget "#00ffff"
       else set_brush widget "#a0a0a4") ;;
      update_light_loop rest
  end.

(** [LightRow.update_light]: update the light beams striking and
    emitting from the device. *)
Definition update_light (_in _out : bool) : M Indicators unit :=
  update_light_loop (combine [beam_indicator; out_indicator] [_in; _out]).

(** The row of the device [bare] as [LightRow.__init__] leaves it. *)
Definition bare_row : Row :=
  mkRow bare "bare" "(XPP:BARE)" "Disconnected"
        "QLabel {color : rgb(255,0,255)}"
        (mkDeviceWidget "fa.square" (10, 10) (50, 50) None)
        [(remove_button, LightRow_remove); (insert_button, LightRow_insert)]
        None None None.

(** Devices none of which can clear a subscription. *)
Definition no_clear_sub (d : Device.t) : option Call := None.

(** The value of a decimal numeral read from the left, after the
    digits read so far gave [acc]. *)
Fixpoint uint_value (acc : Z) (d : Decimal.uint) : Z :=
  match d with
  | Nil => acc
  | D0 d => uint_value (10 * acc + 0) d
  | D1 d => uint_value (10 * acc + 1) d
  | D2 d => uint_value (10 * acc + 2) d
  | D3 d => uint_value (10 * acc + 3) d
  | D4 d => uint_value (10 * acc + 4) d
  | D5 d => uint_value (10 * acc + 5) d
  | D6 d => uint_value (10 * acc + 6) d
  | D7 d => uint_value (10 * acc + 7) d
  | D8 d => uint_value (10 * acc + 8) d
  | D9 d => uint_value (10 * acc + 9) d
  end.

(** A text that does not go on with a digit. *)
Definition ends_number (rest : string) : Prop :=
  match rest with
  | EmptyString => True
  | String c _ => digit_of c = None
  end.

(** The components of a color are those of a [QColor]: not negative. *)
Definition valid_color (c : QColor) : Prop :=
  0 <= red c /\ 0 <= green c /\ 0 <= blue c.

(* ================================================================== *)
(** ** Properties *)

(** *** The classifier and the color table *)

(** C1.  The classifier follows the decision table: both signals set is
    Error, inserted only is Inserted, removed only is Removed, neither
    is Unknown, and a signal without a value, in either position, is
    Disconnected.  It is a total function: every pair of signals is
    classified as one of the members of the enumeration. *)
Theorem classify_decision_table :
  path.classify (Some true) (Some true) = DeviceState.Error /\
  path.classify (Some true) (Some false) = DeviceState.Inserted /\
  path.classify (Some false) (Some true) = DeviceState.Removed /\
  path.classify (Some false) (Some false) = DeviceState.Unknown /\
  (forall removed, path.classify None removed = DeviceState.Disconnected) /\
  (forall inserted, path.classify inserted None = DeviceState.Disconnected) /\
  (forall inserted removed,
      In (path.classify inserted removed) DeviceState.members).
Proof.
  repeat split; try reflexivity.
  - intros [[|]|]; reflexivity.
  - intros [[|]|] [[|]|]; simpl; tauto.
Qed.

(** Every member of the enumeration is listed once, and its ordinal is
    its position in the declaration. *)
Lemma members_complete (s : DeviceState.t) : In s DeviceState.members.
Proof. destruct s; simpl; tauto. Qed.

Lemma value_is_position (s : DeviceState.t) :
  nth_error DeviceState.members (Z.to_nat (DeviceState.value s)) = Some s.
Proof. destruct s; reflexivity. Qed.

Lemma value_range (s : DeviceState.t) : 0 <= DeviceState.value s <= 5.
Proof. destruct s; simpl; lia. Qed.

Lemma state_colors_of_state (s : DeviceState.t) :
  getitem state_colors (DeviceState.value s) =
  Return (nth (Z.to_nat (DeviceState.value s)) state_colors (mkQColor 0 0 0)).
Proof. destruct s; reflexivity. Qed.

(** C3.  The color table has as many entries as [DeviceState] has
    members, six, so that indexing it with an ordinal from 0 to 5 (each
    of which is the ordinal of a member), and so with the ordinal of any
    member as [update_state] does, yields a color and does not raise. *)
Theorem state_colors_lookup_in_bounds (i : Z) (Hi : 0 <= i <= 5) :
  length state_colors = length DeviceState.members /\
  length state_colors = 6%nat /\
  (exists s, DeviceState.value s = i) /\
  (exists c, getitem state_colors i = Return c) /\
  (forall s, exists c, getitem state_colors (DeviceState.value s) = Return c).
Proof.
  split; [reflexivity|]. split; [reflexivity|].
  assert (Hcases : i = 0 \/ i = 1 \/ i = 2 \/ i = 3 \/ i = 4 \/ i = 5) by lia.
  split; [|split].
  - destruct Hcases as [->|[->|[->|[->|[->| ->]]]]];
      [ exists DeviceState.Removed | exists DeviceState.Inserted
      | exists DeviceState.Unknown | exists DeviceState.Disconnected
      | exists DeviceState.PartiallyInserted | exists DeviceState.Error ];
      reflexivity.
  - destruct Hcases as [->|[->|[->|[->|[->| ->]]]]];
      eexists; reflexivity.
  - intro s. eexists. apply state_colors_of_state.
Qed.

(** *** Symbols *)

(** C6.  [symbol_for_device] returns the [_icon] attribute as it is when
    the device has one, leaving the log alone; when the device has none
    it returns ["fa.square"] and logs one record at debug level.  In
    both cases it returns, it does not raise. *)
Theorem symbol_for_device_total {S : Type} (d : Device.t) (w : World) (s : S) :
  symbol_for_device d w s =
  match Device._icon d with
  | Some icon => mkOutcome (Return icon) w s
  | None =>
      mkOutcome (Return "fa.square")
                (logged [mkLogRecord DEBUG (Format "No symbol found %s")
                                     [Device.name d] None] w)
                s
  end.
Proof.
  unfold symbol_for_device, try_except, getattr.
  destruct (Device._icon d); reflexivity.
Qed.

(** *** The rows *)

Section WidgetProperties.

Variable find_device_state : Device.t -> DeviceState.t.
Variable qta_icon : string -> QColor -> result QIcon.

(** What [setColor] does, by the outcome of loading the icon. *)
Lemma setColor_outcome (color : QColor) (w : World) (dw : DeviceWidget) :
  setColor qta_icon color w dw =
  match qta_icon (symbol dw) color with
  | Return icon =>
      mkOutcome (Return tt) w
                (mkDeviceWidget (symbol dw) (minimumSize dw) (maximumSize dw)
                                (Some icon))
  | Raise e =>
      mkOutcome (Return tt) (logged [icon_failure (symbol dw) e] w) dw
  end.
Proof.
  unfold setColor, bind, gets, try_except, lift; simpl.
  destruct (qta_icon (symbol dw) color); reflexivity.
Qed.

Lemma setColor_returns (color : QColor) (w : World) (dw : DeviceWidget) :
  res (setColor qta_icon color w dw) = Return tt.
Proof.
  rewrite setColor_outcome. destruct (qta_icon (symbol dw) color); reflexivity.
Qed.

Lemma setColor_symbol (color : QColor) (w : World) (dw : DeviceWidget) :
  symbol (self (setColor qta_icon color w dw)) = symbol dw.
Proof.
  rewrite setColor_outcome. destruct (qta_icon (symbol dw) color); reflexivity.
Qed.

(** What [update_state] does: it returns, and the only trace besides
    the row is what [setColor] logs. *)
Lemma update_state_outcome (w : World) (r : Row) :
  let st := find_device_state (device r) in
  let color := nth (Z.to_nat (DeviceState.value st)) state_colors
                   (mkQColor 0 0 0) in
  let drawn := setColor qta_icon color w (device_drawing r) in
  update_state find_device_state qta_icon w r =
  mkOutcome (Return tt) (world drawn) (reflected r st color (self drawn)).
Proof.
  intros st color drawn.
  unfold update_state, device_drawing_setColor, bind, gets, modify,
         on_object, getattr, lift, ret; simpl.
  fold st. rewrite (state_colors_of_state st). fold color. simpl.
  fold drawn.
  assert (Hres : res drawn = Return tt) by apply setColor_returns.
  rewrite !Hres. simpl.
  reflexivity.
Qed.

(** The style sheet [update_state] writes names the color of the table. *)
Lemma reflected_shows_color (r : Row) (st : DeviceState.t) (dw : DeviceWidget) :
  shows_color
    (reflected r st
       (nth (Z.to_nat (DeviceState.value st)) state_colors (mkQColor 0 0 0)) dw)
    (nth (Z.to_nat (DeviceState.value st)) state_colors (mkQColor 0 0 0)).
Proof. destruct st; reflexivity. Qed.

Lemma DeviceState_eqb_eq (a b : DeviceState.t) :
  DeviceState.eqb a b = true <-> a = b.
Proof. destruct a, b; simpl; split; congruence. Qed.

(** C2.  After [update_state] the insert button is enabled exactly when
    the device has an [insert] attribute and the state is not Inserted,
    and the remove button exactly when the device has a [remove]
    attribute and the state is not Removed; without an [insert]
    attribute the insert button is disabled whatever the state is. *)
Theorem update_state_buttons (w : World) (r : Row) :
  let st := find_device_state (device r) in
  let has_insert := hasattr (Device.insert (device r)) in
  let has_remove := hasattr (Device.remove (device r)) in
  let after := update_state find_device_state qta_icon w r in
  res after = Return tt /\
  insert_button_enabled (self after) =
    Some (has_insert && negb (DeviceState.eqb st DeviceState.Inserted)) /\
  remove_button_enabled (self after) =
    Some (has_remove && negb (DeviceState.eqb st DeviceState.Removed)) /\
  (insert_button_enabled (self after) = Some true <->
     has_insert = true /\ st <> DeviceState.Inserted) /\
  (remove_button_enabled (self after) = Some true <->
     has_remove = true /\ st <> DeviceState.Removed) /\
  (has_insert = false -> insert_button_enabled (self after) = Some false).
Proof.
  intros st has_insert has_remove after.
  unfold after. rewrite update_state_outcome. fold st. simpl.
  fold has_insert has_remove. unfold DeviceState.neqb.
  clearbody st has_insert has_remove. clear after.
  destruct st, has_insert; simpl;
    repeat match goal with
           | |- _ /\ _ => split
           | |- _ <-> _ => split
           end;
    try reflexivity; try discriminate; try congruence;
    try (intros [? ?]; congruence);
    try (intros _; split; congruence);
    destruct has_remove; simpl;
    try reflexivity; try discriminate; try congruence;
    try (intros [? ?]; congruence);
    try (intros _; split; congruence).
Qed.

(** C4.  The text [update_state] gives the state label is the display
    name of the state, which is "Disconnected" for the Disconnected
    state as well as for the PartiallyInserted state. *)
Theorem update_state_label (w : World) (r : Row) :
  let st := find_device_state (device r) in
  let after := update_state find_device_state qta_icon w r in
  res after = Return tt /\
  state_label_text (self after) = DeviceState.name st /\
  last_state (self after) = Some st /\
  DeviceState.name DeviceState.Disconnected = "Disconnected" /\
  DeviceState.name DeviceState.PartiallyInserted = "Disconnected" /\
  (st = DeviceState.Disconnected \/ st = DeviceState.PartiallyInserted ->
   state_label_text (self after) = "Disconnected").
Proof.
  intros st after. unfold after. rewrite update_state_outcome. fold st. simpl.
  repeat split; try reflexivity.
  intros [-> | ->]; reflexivity.
Qed.

(** C9.  Running [update_state] a second time on the same device gives
    the same row as running it once, and both runs return; the row it
    leaves does not depend on what has been logged or registered. *)
Theorem update_state_idempotent (w : World) (r : Row) :
  let once := update_state find_device_state qta_icon w r in
  let twice := update_state find_device_state qta_icon (world once) (self once) in
  res once = Return tt /\
  res twice = Return tt /\
  self twice = self once /\
  state_label_text (self twice) = state_label_text (self once) /\
  state_label_styleSheet (self twice) = state_label_styleSheet (self once) /\
  insert_button_enabled (self twice) = insert_button_enabled (self once) /\
  remove_button_enabled (self twice) = remove_button_enabled (self once) /\
  (forall w', self (update_state find_device_state qta_icon w' r) = self once).
Proof.
  intros once twice.
  assert (Hsame : self twice = self once).
  { unfold twice, once. rewrite !update_state_outcome. simpl.
    unfold reflected. simpl. f_equal.
    rewrite !setColor_outcome.
    destruct (qta_icon (symbol (device_drawing r)) _) eqn:E; simpl.
    - rewrite E. reflexivity.
    - rewrite E. reflexivity. }
  repeat split; try (rewrite Hsame; reflexivity).
  - unfold once. rewrite update_state_outcome. reflexivity.
  - unfold twice. rewrite update_state_outcome. reflexivity.
  - intro w'. unfold once. rewrite !update_state_outcome. simpl.
    f_equal. rewrite !setColor_outcome.
    destruct (qta_icon (symbol (device_drawing r)) _); reflexivity.
Qed.

(** A [DeviceWidget] is created without a pixmap. *)
Lemma DeviceWidget__init__outcome {S : Type} (d : Device.t) (w : World) (s : S) :
  exists sym w1,
    DeviceWidget__init__ d w s =
    mkOutcome (Return (mkDeviceWidget sym (10, 10) (50, 50) None)) w1 s /\
    symbol_for_device d w s = mkOutcome (Return sym) w1 s.
Proof.
  unfold DeviceWidget__init__, bind, symbol_for_device, try_except, getattr.
  destruct (Device._icon d); simpl; eexists; eexists; split; reflexivity.
Qed.

(** A widget without a pixmap whose symbol loads for none of the colors
    it is asked to take stays without a pixmap, and every call returns. *)
Lemma setColor_each_failing (colors : list QColor) (w : World)
    (dw : DeviceWidget) :
  (forall c, In c colors -> exists e, qta_icon (symbol dw) c = Raise e) ->
  res (setColor_each qta_icon colors w dw) = Return tt /\
  self (setColor_each qta_icon colors w dw) = dw /\
  length (log (world (setColor_each qta_icon colors w dw)))
    = (length (log w) + length colors)%nat.
Proof.
  revert w. induction colors as [|c rest IH]; intros w Hfail.
  - simpl. repeat split. rewrite Nat.add_0_r. reflexivity.
  - destruct (Hfail c (or_introl eq_refl)) as [e He].
    assert (Hrest : forall c', In c' rest ->
                               exists e', qta_icon (symbol dw) c' = Raise e')
      by (intros c' Hc'; apply Hfail; right; exact Hc').
    simpl. unfold bind. rewrite setColor_outcome, He. simpl.
    destruct (IH (logged [icon_failure (symbol dw) e] w) Hrest)
      as (Hres & Hself & Hlog).
    repeat split; try assumption.
    rewrite Hlog. simpl. rewrite length_app. simpl. lia.
Qed.

(** C10.  When loading the icon of the widget's symbol raises,
    [setColor] returns normally, logs the failure once, and leaves the
    widget as it was: no pixmap is set.  A widget is created without a
    pixmap, so a widget whose symbol does not load shows no icon,
    however many times its color is set. *)
Theorem setColor_failure_not_fatal (color : QColor) (w : World)
    (dw : DeviceWidget) (e : Exception)
    (Hfail : qta_icon (symbol dw) color = Raise e) :
  setColor qta_icon color w dw =
    mkOutcome (Return tt) (logged [icon_failure (symbol dw) e] w) dw /\
  pixmap (self (setColor qta_icon color w dw)) = pixmap dw /\
  (forall (d : Device.t) (w0 : World) (colors : list QColor),
      exists built w1,
        DeviceWidget__init__ d w0 tt = mkOutcome (Return built) w1 tt /\
        pixmap built = None /\
        ((forall c, In c colors ->
                    exists e', qta_icon (symbol built) c = Raise e') ->
         res (setColor_each qta_icon colors w1 built) = Return tt /\
         pixmap (self (setColor_each qta_icon colors w1 built)) = None)).
Proof.
  rewrite setColor_outcome, Hfail. simpl. repeat split.
  intros d w0 colors.
  destruct (DeviceWidget__init__outcome d w0 tt) as (sym & w1 & H & _).
  eexists. exists w1. split; [exact H|]. split; [reflexivity|].
  intro Hnever.
  destruct (setColor_each_failing colors w1 _ Hnever) as (Hres & Hself & _).
  split; [exact Hres|]. rewrite Hself. reflexivity.
Qed.

(** C7.  When the device method behind a slot raises, the slot logs
    the exception at error level after its announcement and returns
    normally, leaving the row as it was; and whatever the device does,
    a slot never raises. *)
Theorem slot_failure_is_caught (s : Slot) (w : World) (r : Row) (e : Exception)
    (Hraises : slot_action s (device r) = Some (Raises e)) :
  run_slot s w r =
    mkOutcome (Return tt)
              (logged [mkLogRecord INFO (Format (slot_announcement s))
                                   [Device.name (device r)] None;
                       mkLogRecord ERROR (Object e) [] None] w)
              r /\
  (forall s' w' r', res (run_slot s' w' r') = Return tt).
Proof.
  split.
  - destruct s; simpl in Hraises;
      unfold run_slot, remove, insert, bind, gets, try_except, logger_info,
             logger_error, logger_call, getattr, call, logged;
      simpl; rewrite Hraises; simpl; rewrite <- app_assoc; reflexivity.
  - intros s' w' r'.
    destruct s';
      unfold run_slot, remove, insert, bind, gets, try_except, logger_info,
             logger_error, logger_call, getattr, call; simpl.
    + destruct (Device.remove (device r')) as [[|e']|]; reflexivity.
    + destruct (Device.insert (device r')) as [[|e']|]; reflexivity.
Qed.

(** The row [InactiveRow.__init__] builds. *)
Lemma InactiveRow__init__outcome {S : Type} (d : Device.t) (w : World) (s : S) :
  exists sym w1,
    symbol_for_device d w s = mkOutcome (Return sym) w1 s /\
    InactiveRow__init__ d w s =
    mkOutcome
      (Return (mkRow d (Device.name d) ("(" ++ Device.prefix d ++ ")")
                     "Disconnected" "QLabel {color : rgb(255,0,255)}"
                     (mkDeviceWidget sym (10, 10) (50, 50) None)
                     [] None None None))
      w1 s.
Proof.
  destruct (DeviceWidget__init__outcome d w s) as (sym & w1 & H & Hs).
  exists sym, w1. split; [exact Hs|].
  unfold InactiveRow__init__, bind. rewrite H. reflexivity.
Qed.

(** C8.  [LightRow.__init__] builds the row of [InactiveRow.__init__],
    connects the two buttons, and asks the device once to call
    [update_state] on state changes, with [run=False]: a device that
    accepts gets exactly one new registration and the callback is not
    run; for a device that does not support subscription one error is
    logged and nothing is registered.  In both cases the constructor
    returns the row, which shows the default Disconnected label. *)
Theorem LightRow_subscribes_once (d : Device.t) (w : World) :
  exists row w1,
    InactiveRow__init__ d w tt = mkOutcome (Return row) w1 tt /\
    state_label_text row = "Disconnected" /\
    state_label_styleSheet row = "QLabel {color : rgb(255,0,255)}" /\
    last_state row = None /\
    LightRow__init__ find_device_state qta_icon d w tt =
    mkOutcome
      (Return (set_connections [(remove_button, LightRow_remove);
                                (insert_button, LightRow_insert)] row))
      match subscribable d with
      | Some event_type =>
          registered [mkSubscription LightRow_update_state event_type false] w1
      | None =>
          logged [mkLogRecord ERROR
                    (Format "Widget is unable to subscribe to device %s")
                    [Device.name d] None] w1
      end
      tt.
Proof.
  destruct (InactiveRow__init__outcome d w tt) as (sym & w1 & _ & H).
  eexists. exists w1. split; [exact H|].
  repeat split.
  unfold LightRow__init__, bind. rewrite H. simpl.
  unfold on_object, LightRow__init__body, connect, bind, modify, gets,
         try_except, getattr, subscribe_call, call, logger_error,
         logger_call, subscribable, registered, logged, ret; simpl.
  destruct (Device.subscribe d) as [f|]; simpl; [|reflexivity].
  destruct (Device.SUB_STATE d) as [event_type|]; simpl; [|reflexivity].
  destruct (f event_type); reflexivity.
Qed.

End WidgetProperties.

(** *** The initial display *)


(** *** The properties at sample inputs *)

Lemma state_colors_lookup_in_bounds_witness :
  0 <= 3 <= 5 /\
  length state_colors = 6%nat /\
  getitem state_colors 3 = Return (mkQColor 255 215 0).
Proof.
  assert (H : 0 <= 3 <= 5) by lia.
  split; [exact H|].
  destruct (state_colors_lookup_in_bounds 3 H) as (_ & Hlen & _).
  split; [exact Hlen | reflexivity].
Defined.

Lemma setColor_failure_not_fatal_witness :
  square_only "xx.stopper" (mkQColor 255 0 0)
    = Raise (Raised "Exception" "Invalid font prefix") /\
  setColor square_only (mkQColor 255 0 0) empty_world
           (mkDeviceWidget "xx.stopper" (10, 10) (50, 50) None) =
  mkOutcome (Return tt)
            (logged [icon_failure "xx.stopper"
                       (Raised "Exception" "Invalid font prefix")]
                    empty_world)
            (mkDeviceWidget "xx.stopper" (10, 10) (50, 50) None).
Proof.
  assert (H : square_only
                (symbol (mkDeviceWidget "xx.stopper" (10, 10) (50, 50) None))
                (mkQColor 255 0 0)
              = Raise (Raised "Exception" "Invalid font prefix"))
    by reflexivity.
  split; [exact H|].
  exact (proj1 (setColor_failure_not_fatal square_only (mkQColor 255 0 0)
                  empty_world
                  (mkDeviceWidget "xx.stopper" (10, 10) (50, 50) None)
                  (Raised "Exception" "Invalid font prefix") H)).
Defined.

Lemma slot_failure_is_caught_witness :
  slot_action LightRow_remove (device stopper_row)
    = Some (Raises (Raised "RuntimeError" "stuck")) /\
  run_slot LightRow_remove empty_world stopper_row =
  mkOutcome (Return tt)
            (logged [mkLogRecord INFO (Format "Removing device %s ...")
                                 ["stopper"] None;
                     mkLogRecord ERROR
                                 (Object (Raised "RuntimeError" "stuck"))
                                 [] None]
                    empty_world)
            stopper_row.
Proof.
  assert (H : slot_action LightRow_remove (device stopper_row)
              = Some (Raises (Raised "RuntimeError" "stuck")))
    by reflexivity.
  split; [exact H|].
  exact (proj1 (slot_failure_is_caught LightRow_remove empty_world stopper_row
                  (Raised "RuntimeError" "stuck") H)).
Defined.

(* ================================================================== *)
(** ** Further properties of the module *)

(** *** Style sheets *)

Lemma append_assoc (a b c : string) : ((a ++ b) ++ c = a ++ (b ++ c))%string.
Proof. induction a as [|x a IH]; simpl; [reflexivity | now rewrite IH]. Qed.

Lemma append_empty_r (a : string) : (a ++ "" = a)%string.
Proof. induction a as [|x a IH]; simpl; [reflexivity | now rewrite IH]. Qed.

(** A number under construction is emitted where the digits stop. *)
Lemma numbers_from_flush (n : Z) (rest : string) :
  ends_number rest ->
  numbers_from (Some n) rest = n :: numbers_from None rest.
Proof.
  destruct rest as [|c rest]; simpl; [reflexivity|].
  intros ->. reflexivity.
Qed.

Ltac read_digit :=
  match goal with
  | |- context [digit_of ?c] =>
      let v := eval vm_compute in (digit_of c) in
      change (digit_of c) with v
  end.

(** Reading the digits of a numeral continues the number read so far. *)
Lemma numbers_from_digits (d : Decimal.uint) :
  forall (acc : Z) (rest : string),
    ends_number rest ->
    numbers_from (Some acc) (NilEmpty.string_of_uint d ++ rest)
    = uint_value acc d :: numbers_from None rest.
Proof.
  induction d; intros acc rest Hrest;
    cbn [NilEmpty.string_of_uint append uint_value numbers_from];
    try (apply numbers_from_flush; exact Hrest);
    read_digit; cbv iota; apply IHd; exact Hrest.
Qed.

Lemma numbers_from_numeral (d : Decimal.uint) (rest : string) :
  d <> Nil ->
  ends_number rest ->
  numbers_from None (NilEmpty.string_of_uint d ++ rest)
  = uint_value 0 d :: numbers_from None rest.
Proof.
  intros Hd Hrest.
  destruct d; [congruence | ..];
    cbn [NilEmpty.string_of_uint append uint_value numbers_from];
    read_digit; cbv iota;
    rewrite numbers_from_digits by exact Hrest; reflexivity.
Qed.

(** The value of a numeral is the number the library reads from it. *)
Lemma of_uint_acc_value (d : Decimal.uint) :
  forall acc, Z.pos (Pos.of_uint_acc d acc) = uint_value (Z.pos acc) d.
Proof.
  induction d; intro acc; cbn [Pos.of_uint_acc uint_value];
    try reflexivity; rewrite IHd; f_equal; lia.
Qed.

Lemma of_uint_value (d : Decimal.uint) :
  Z.of_N (Pos.of_uint d) = uint_value 0 d.
Proof.
  induction d; cbn [Pos.of_uint uint_value]; try reflexivity;
    try (rewrite IHd; reflexivity);
    cbn [Z.of_N]; rewrite of_uint_acc_value; reflexivity.
Qed.

(** [repr] of an integer that is not negative reads back as it. *)
Lemma numbers_from_repr_int (z : Z) (rest : string) :
  0 <= z ->
  ends_number rest ->
  numbers_from None (repr_int z ++ rest) = z :: numbers_from None rest.
Proof.
  intros Hz Hrest. destruct z as [|p|p]; [| |lia].
  - cbn. apply numbers_from_flush. exact Hrest.
  - unfold repr_int. cbn [Z.to_int NilZero.string_of_int].
    assert (Hval : uint_value 0 (Pos.to_uint p) = Z.pos p).
    { rewrite <- of_uint_value, DecimalPos.Unsigned.of_to. reflexivity. }
    assert (Hnil : Pos.to_uint p <> Nil).
    { intro H. rewrite H in Hval. discriminate. }
    assert (Hstr : NilZero.string_of_uint (Pos.to_uint p)
                   = NilEmpty.string_of_uint (Pos.to_uint p))
      by (destruct (Pos.to_uint p); [congruence | reflexivity ..]).
    unfold repr_int in *. rewrite Hstr.
    rewrite numbers_from_numeral by assumption.
    rewrite Hval. reflexivity.
Qed.

(** The numbers of the specification of a color are its components. *)
Lemma numbers_from_to_stylesheet_color (c : QColor) (suffix : string) :
  valid_color c ->
  numbers_from None (to_stylesheet_color c ++ suffix)
  = red c :: green c :: blue c :: numbers_from None suffix.
Proof.
  intros (Hr & Hg & Hb). unfold to_stylesheet_color.
  rewrite !append_assoc.
  change (numbers_from None
            (repr_int (red c) ++ ", " ++ repr_int (green c) ++ ", "
             ++ repr_int (blue c) ++ ")" ++ suffix)
          = red c :: green c :: blue c :: numbers_from None suffix).
  rewrite numbers_from_repr_int by (assumption || reflexivity).
  change (red c :: numbers_from None
            (repr_int (green c) ++ ", " ++ repr_int (blue c) ++ ")" ++ suffix)
          = red c :: green c :: blue c :: numbers_from None suffix).
  rewrite numbers_from_repr_int by (assumption || reflexivity).
  change (red c :: green c :: numbers_from None
            (repr_int (blue c) ++ ")" ++ suffix)
          = red c :: green c :: blue c :: numbers_from None suffix).
  rewrite numbers_from_repr_int by (assumption || reflexivity).
  reflexivity.
Qed.

(** X1.  The specification [to_stylesheet_color] writes for a color
    whose components are not negative, and the style sheet
    [update_state] builds around it, name exactly the red, green and
    blue components of the color, in this order. *)
Theorem stylesheet_names_the_components (c : QColor) (Hc : valid_color c) :
  stylesheet_numbers (to_stylesheet_color c) = [red c; green c; blue c] /\
  stylesheet_numbers ("QLabel {color: " ++ to_stylesheet_color c ++ "}")
  = [red c; green c; blue c].
Proof.
  split.
  - unfold stylesheet_numbers.
    rewrite <- (append_empty_r (to_stylesheet_color c)).
    rewrite numbers_from_to_stylesheet_color by exact Hc. reflexivity.
  - unfold stylesheet_numbers.
    change (numbers_from None (to_stylesheet_color c ++ "}")
            = [red c; green c; blue c]).
    rewrite numbers_from_to_stylesheet_color by exact Hc. reflexivity.
Qed.

(** X2.  The specification [to_stylesheet_color] writes is decided by
    the red, green and blue components of a color and by nothing else:
    for components that are not negative, two colors get the same
    specification exactly when the three components agree, so colors
    that differ in a component are told apart and whatever else
    distinguishes two colors does not reach the style sheet. *)
Theorem to_stylesheet_color_separates_components (c1 c2 : QColor)
    (H1 : valid_color c1) (H2 : valid_color c2) :
  to_stylesheet_color c1 = to_stylesheet_color c2 <->
  red c1 = red c2 /\ green c1 = green c2 /\ blue c1 = blue c2.
Proof.
  split.
  - intro Heq.
    assert (Hn : numbers_from None (to_stylesheet_color c1 ++ "")
                 = numbers_from None (to_stylesheet_color c2 ++ ""))
      by (rewrite Heq; reflexivity).
    rewrite !numbers_from_to_stylesheet_color in Hn by assumption.
    injection Hn as Hr Hg Hb. auto.
  - intros (Hr & Hg & Hb). unfold to_stylesheet_color.
    rewrite Hr, Hg, Hb. reflexivity.
Qed.

(** *** The color table *)

(** X3.  Two positions of the color table hold the same color exactly
    when they are the same position, or positions 2 and 3, or
    positions 4 and 5: the table tells apart four groups of states. *)
Theorem state_colors_collisions (i j : Z)
    (Hi : 0 <= i <= 5) (Hj : 0 <= j <= 5) :
  getitem state_colors i = getitem state_colors j <->
  (i = j \/ (i = 2 /\ j = 3) \/ (i = 3 /\ j = 2)
   \/ (i = 4 /\ j = 5) \/ (i = 5 /\ j = 4)).
Proof.
  assert (Hci : i = 0 \/ i = 1 \/ i = 2 \/ i = 3 \/ i = 4 \/ i = 5) by lia.
  assert (Hcj : j = 0 \/ j = 1 \/ j = 2 \/ j = 3 \/ j = 4 \/ j = 5) by lia.
  destruct Hci as [->|[->|[->|[->|[->| ->]]]]];
    destruct Hcj as [->|[->|[->|[->|[->| ->]]]]];
    (split; [intro H; vm_compute in H; first [discriminate H | lia]
            | intro H; first [reflexivity | exfalso; lia]]).
Qed.

(** *** Notifications *)

Section MoreWidgetProperties.

Variable find_device_state : Device.t -> DeviceState.t.
Variable qta_icon : string -> QColor -> result QIcon.
Variable device_clear_sub : Device.t -> option Call.

(** The color [update_state] takes from the table for a row. *)
Let color_of (r : Row) : QColor :=
  nth (Z.to_nat (DeviceState.value (find_device_state (device r))))
      state_colors (mkQColor 0 0 0).

(** X4.  A notification touches the state display only: the device,
    the name and prefix labels, the connections of the buttons and the
    symbol and size limits of the drawing stay as they are, nothing is
    registered or unregistered on the device, and at most one record is
    logged. *)
Theorem update_state_frame (w : World) (r : Row) :
  let after := update_state find_device_state qta_icon w r in
  device (self after) = device r /\
  name_label (self after) = name_label r /\
  prefix_label (self after) = prefix_label r /\
  connections (self after) = connections r /\
  symbol (device_drawing (self after)) = symbol (device_drawing r) /\
  minimumSize (device_drawing (self after)) = minimumSize (device_drawing r) /\
  maximumSize (device_drawing (self after)) = maximumSize (device_drawing r) /\
  subscriptions (world after) = subscriptions w /\
  exists records,
    log (world after) = (log w ++ records)%list /\ (length records <= 1)%nat.
Proof.
  intros after. unfold after. rewrite update_state_outcome. simpl.
  rewrite setColor_outcome.
  destruct (qta_icon (symbol (device_drawing r)) _) as [icon|e]; simpl;
    repeat split.
  - exists []. rewrite app_nil_r. split; [reflexivity | simpl; lia].
  - eexists. split; [reflexivity | simpl; lia].
Qed.

(** X5.  When the icon of the drawing loads in the color of the state,
    a notification gives the drawing that icon, made with the very
    color the style sheet of the label names, and logs nothing. *)
Theorem update_state_icon_matches_label (w : World) (r : Row) (icon : QIcon)
    (Hload : qta_icon (symbol (device_drawing r)) (color_of r) = Return icon) :
  let after := update_state find_device_state qta_icon w r in
  pixmap (device_drawing (self after)) = Some icon /\
  shows_color (self after) (color_of r) /\
  world after = w.
Proof.
  intros after. unfold after. rewrite update_state_outcome. cbv zeta.
  rewrite setColor_outcome. unfold color_of in *. rewrite Hload.
  cbn [self world res]. split; [reflexivity|].
  split; [apply reflected_shows_color | reflexivity].
Qed.

(** X6.  When the icon does not load in the color of the state, a
    notification still updates the label, its color and the buttons,
    but the drawing keeps the pixmap it had, which may be the one of an
    earlier state; the failure is logged once. *)
Theorem update_state_keeps_stale_pixmap (w : World) (r : Row) (e : Exception)
    (Hfail : qta_icon (symbol (device_drawing r)) (color_of r) = Raise e) :
  let after := update_state find_device_state qta_icon w r in
  res after = Return tt /\
  device_drawing (self after) = device_drawing r /\
  state_label_text (self after)
    = DeviceState.name (find_device_state (device r)) /\
  shows_color (self after) (color_of r) /\
  last_state (self after) = Some (find_device_state (device r)) /\
  world after = logged [icon_failure (symbol (device_drawing r)) e] w.
Proof.
  intros after. unfold after. rewrite update_state_outcome. cbv zeta.
  rewrite setColor_outcome. unfold color_of in *. rewrite Hfail.
  cbn [self world res].
  repeat (split; [reflexivity|]).
  split; [apply reflected_shows_color|].
  split; reflexivity.
Qed.

(** *** Buttons *)

(** What a slot does, by what the device does. *)
Lemma run_slot_outcome (s : Slot) (w : World) (r : Row) :
  run_slot s w r =
  mkOutcome (Return tt)
            (logged (announcement s (device r)
                     :: match slot_action s (device r) with
                        | Some Returns => []
                        | Some (Raises e) => [mkLogRecord ERROR (Object e) [] None]
                        | None =>
                            [mkLogRecord ERROR
                               (Object (AttributeError (slot_method_name s)))
                               [] None]
                        end) w)
            r.
Proof.
  destruct s;
    unfold run_slot, remove, insert, bind, gets, try_except, logger_info,
           logger_error, logger_call, getattr, call, logged, announcement,
           slot_action, slot_method_name, slot_announcement; simpl.
  - destruct (Device.remove (device r)) as [[|e]|]; simpl;
      rewrite <- ?app_assoc; reflexivity.
  - destruct (Device.insert (device r)) as [[|e]|]; simpl;
      rewrite <- ?app_assoc; reflexivity.
Qed.

(** X7.  A slot never changes the row nor the registrations on the
    device, and always returns.  When the device method returns, the
    announcement is the only record logged; when the device has no such
    method, the [AttributeError] of the lookup is logged like any other
    failure. *)
Theorem slot_leaves_the_row_alone (s : Slot) (w : World) (r : Row) :
  res (run_slot s w r) = Return tt /\
  self (run_slot s w r) = r /\
  subscriptions (world (run_slot s w r)) = subscriptions w /\
  (slot_action s (device r) = Some Returns ->
   log (world (run_slot s w r))
   = (log w ++ [announcement s (device r)])%list) /\
  (slot_action s (device r) = None ->
   log (world (run_slot s w r))
   = (log w ++ [announcement s (device r);
                mkLogRecord ERROR
                  (Object (AttributeError (slot_method_name s))) [] None])%list).
Proof.
  rewrite run_slot_outcome. simpl. repeat split.
  - intros ->. reflexivity.
  - intros ->. reflexivity.
Qed.

(** The row [LightRow.__init__] returns is the row of
    [InactiveRow.__init__] with the two buttons connected. *)
Lemma LightRow__init__row (d : Device.t) (w : World) :
  exists row,
    res (InactiveRow__init__ d w tt) = Return row /\
    connections row = [] /\
    device row = d /\
    res (LightRow__init__ find_device_state qta_icon d w tt) =
    Return (set_connections [(remove_button, LightRow_remove);
                             (insert_button, LightRow_insert)] row).
Proof.
  destruct (InactiveRow__init__outcome d w tt) as (sym & w1 & _ & H).
  eexists. split; [rewrite H; reflexivity|].
  split; [reflexivity|]. split; [reflexivity|].
  unfold LightRow__init__, bind. rewrite H. simpl.
  unfold on_object, LightRow__init__body, connect, bind, modify, gets,
         try_except, getattr, subscribe_call, call, logger_error,
         logger_call, ret; simpl.
  destruct (Device.subscribe d) as [f|]; simpl; [|reflexivity].
  destruct (Device.SUB_STATE d) as [event_type|]; simpl; [|reflexivity].
  destruct (f event_type); reflexivity.
Qed.

Lemma bind_ret_tt (m : M Row unit) (w : World) (r : Row) :
  res (m w r) = Return tt ->
  bind m (fun _ => bind (ret tt) (fun _ => ret tt)) w r = m w r.
Proof.
  intro H. unfold bind, ret. rewrite H. simpl.
  destruct (m w r) as [x w' r']. simpl in *. rewrite H. reflexivity.
Qed.

(** X8.  On a row built by [LightRow.__init__] a click on the remove
    button runs [remove] and nothing else, and a click on the insert
    button runs [insert] and nothing else; on a row built by
    [InactiveRow.__init__] a click does nothing. *)
Theorem click_runs_the_connected_slot (d : Device.t) (w : World) :
  exists light inactive,
    res (LightRow__init__ find_device_state qta_icon d w tt) = Return light /\
    res (InactiveRow__init__ d w tt) = Return inactive /\
    (forall w', click remove_button w' light = remove w' light) /\
    (forall w', click insert_button w' light = insert w' light) /\
    (forall b w', click b w' inactive = mkOutcome (Return tt) w' inactive).
Proof.
  destruct (LightRow__init__row d w) as (row & Hrow & Hconn & _ & Hlight).
  eexists. exists row.
  split; [exact Hlight|]. split; [exact Hrow|].
  split; [|split].
  - intro w'. unfold click, bind at 1, gets. simpl.
    apply (bind_ret_tt (run_slot LightRow_remove)).
    rewrite run_slot_outcome. reflexivity.
  - intro w'. unfold click, bind at 1, gets. simpl.
    unfold bind at 1, ret at 1. simpl.
    unfold bind at 1.
    pose proof (run_slot_outcome LightRow_insert w'
                  (set_connections [(remove_button, LightRow_remove);
                                    (insert_button, LightRow_insert)] row)) as H.
    simpl run_slot in H. rewrite H. reflexivity.
  - intros b w'. unfold click, bind, gets. simpl. rewrite Hconn. reflexivity.
Qed.

(** *** Teardown *)

(** X9.  [LightRow.clear_sub] is not guarded: for a device that has no
    [clear_sub] method, or whose [clear_sub] raises, the row is built
    all the same, but clearing its subscription raises to the caller,
    with nothing logged and the row unchanged.  [InactiveRow.clear_sub]
    does nothing. *)
Theorem clear_sub_is_not_guarded (d : Device.t) (w : World)
    (Hclr : device_clear_sub d <> Some Returns) :
  exists row e,
    res (LightRow__init__ find_device_state qta_icon d w tt) = Return row /\
    (forall w', LightRow_clear_sub device_clear_sub w' row
                = mkOutcome (Raise e) w' row) /\
    (forall w', InactiveRow_clear_sub w' row = mkOutcome (Return tt) w' row).
Proof.
  destruct (LightRow__init__row d w) as (row & _ & _ & Hdev & Hlight).
  eexists.
  exists (match device_clear_sub d with
          | Some (Raises e) => e
          | _ => AttributeError "clear_sub"
          end).
  split; [exact Hlight|]. split; [|reflexivity].
  intro w'. unfold LightRow_clear_sub, bind, gets, getattr, clear_sub_call.
  simpl. rewrite Hdev.
  destruct (device_clear_sub d) as [[|e]|]; [congruence | reflexivity ..].
Qed.

End MoreWidgetProperties.

(** *** Light indicators *)

(** X10.  [update_light] sets the brush of the beam indicator from
    [_in] and the brush of the out indicator from [_out], cyan for a
    beam and grey for none, whatever the brushes were: of two calls in
    a row only the last one shows.  It logs nothing and returns. *)
Theorem update_light_last_call_wins (in1 out1 in2 out2 : bool)
    (w : World) (s : Indicators) :
  let first := update_light in1 out1 w s in
  let second := update_light in2 out2 (world first) (self first) in
  res second = Return tt /\
  world second = w /\
  self second = self (update_light in2 out2 w s) /\
  beam_indicator_brush (self second)
    = Some (if in2 then "#00ffff" else "#a0a0a4") /\
  out_indicator_brush (self second)
    = Some (if out2 then "#00ffff" else "#a0a0a4").
Proof.
  destruct in1, out1, in2, out2, s; repeat split.
Qed.

(** *** Condensed rows *)

(** X11.  [condense] hides the device information, the commands and
    the out indicator, sets the spacing to 1 and limits the drawing to
    a height of exactly 15 and a width of at most 15; it leaves the
    state display (label, style sheet, buttons, recorded state), the
    symbol and the pixmap of the drawing as they are and logs nothing.
    A later notification keeps the limits: a condensed row stays
    condensed. *)
Theorem condense_keeps_the_state_display
    (find_device_state : Device.t -> DeviceState.t)
    (qta_icon : string -> QColor -> result QIcon)
    (w : World) (r : Row) (c : Chrome) :
  let condensed := condense w (r, c) in
  let row := fst (self condensed) in
  let notified := update_state find_device_state qta_icon w row in
  res condensed = Return tt /\
  world condensed = w /\
  snd (self condensed) = mkChrome true true true (Some 1) /\
  row = set_device_drawing
          (mkDeviceWidget (symbol (device_drawing r))
                          (fst (minimumSize (device_drawing r)), 15)
                          (15, 15)
                          (pixmap (device_drawing r)))
          r /\
  minimumSize (device_drawing (self notified))
    = (fst (minimumSize (device_drawing r)), 15) /\
  maximumSize (device_drawing (self notified)) = (15, 15).
Proof.
  intros condensed row notified.
  assert (Hrow : row = set_device_drawing
                         (mkDeviceWidget (symbol (device_drawing r))
                            (fst (minimumSize (device_drawing r)), 15)
                            (15, 15)
                            (pixmap (device_drawing r)))
                         r) by reflexivity.
  repeat split.
  - unfold notified. rewrite update_state_outcome. cbv zeta.
    rewrite setColor_outcome. rewrite Hrow.
    destruct (qta_icon _ _); reflexivity.
  - unfold notified. rewrite update_state_outcome. cbv zeta.
    rewrite setColor_outcome. rewrite Hrow.
    destruct (qta_icon _ _); reflexivity.
Qed.

(** *** The further properties at sample inputs *)

Lemma stylesheet_names_the_components_witness :
  valid_color (mkQColor 124 252 0) /\
  stylesheet_numbers ("QLabel {color: "
                      ++ to_stylesheet_color (mkQColor 124 252 0) ++ "}")
  = [124; 252; 0].
Proof.
  assert (H : valid_color (mkQColor 124 252 0)) by (cbv; intuition discriminate).
  split; [exact H|].
  exact (proj2 (stylesheet_names_the_components (mkQColor 124 252 0) H)).
Defined.

Lemma to_stylesheet_color_separates_components_witness :
  valid_color (mkQColor 255 0 0) /\ valid_color (mkQColor 255 215 0) /\
  to_stylesheet_color (mkQColor 255 0 0)
    <> to_stylesheet_color (mkQColor 255 215 0).
Proof.
  assert (H1 : valid_color (mkQColor 255 0 0)) by (cbv; intuition discriminate).
  assert (H2 : valid_color (mkQColor 255 215 0))
    by (cbv; intuition discriminate).
  split; [exact H1|]. split; [exact H2|].
  intro Heq.
  destruct (proj1 (to_stylesheet_color_separates_components
                     (mkQColor 255 0 0) (mkQColor 255 215 0) H1 H2) Heq)
    as (_ & Hg & _).
  discriminate Hg.
Defined.

Lemma state_colors_collisions_witness :
  0 <= 2 <= 5 /\ 0 <= 3 <= 5 /\
  getitem state_colors 2 = getitem state_colors 3.
Proof.
  assert (H2 : 0 <= 2 <= 5) by lia.
  assert (H3 : 0 <= 3 <= 5) by lia.
  split; [exact H2|]. split; [exact H3|].
  apply (proj2 (state_colors_collisions 2 3 H2 H3)).
  right. left. split; reflexivity.
Defined.

Lemma update_state_icon_matches_label_witness :
  square_only (symbol (device_drawing bare_row)) (mkQColor 255 215 0)
    = Return (mkQIcon "fa.square" (mkQColor 255 215 0)) /\
  pixmap (device_drawing
            (self (update_state path.find_device_state square_only
                                empty_world bare_row)))
  = Some (mkQIcon "fa.square" (mkQColor 255 215 0)).
Proof.
  assert (H : square_only (symbol (device_drawing bare_row))
                (nth (Z.to_nat (DeviceState.value
                                  (path.find_device_state (device bare_row))))
                     state_colors (mkQColor 0 0 0))
              = Return (mkQIcon "fa.square" (mkQColor 255 215 0)))
    by reflexivity.
  split; [exact H|].
  exact (proj1 (update_state_icon_matches_label path.find_device_state
                  square_only empty_world bare_row _ H)).
Defined.

Lemma update_state_keeps_stale_pixmap_witness :
  square_only (symbol (device_drawing stopper_row)) (mkQColor 255 0 0)
    = Raise (Raised "Exception" "Invalid font prefix") /\
  device_drawing
    (self (update_state path.find_device_state square_only
                        empty_world stopper_row))
  = device_drawing stopper_row.
Proof.
  assert (H : square_only (symbol (device_drawing stopper_row))
                (nth (Z.to_nat (DeviceState.value
                                  (path.find_device_state (device stopper_row))))
                     state_colors (mkQColor 0 0 0))
              = Raise (Raised "Exception" "Invalid font prefix"))
    by reflexivity.
  split; [exact H|].
  exact (proj1 (proj2 (update_state_keeps_stale_pixmap path.find_device_state
                         square_only empty_world stopper_row _ H))).
Defined.

Lemma clear_sub_is_not_guarded_witness :
  no_clear_sub bare <> Some Returns /\
  exists row e,
    res (LightRow__init__ path.find_device_state square_only
                          bare empty_world tt) = Return row /\
    (forall w', LightRow_clear_sub no_clear_sub w' row
                = mkOutcome (Raise e) w' row) /\
    (forall w', InactiveRow_clear_sub w' row = mkOutcome (Return tt) w' row).
Proof.
  assert (H : no_clear_sub bare <> Some Returns) by discriminate.
  split; [exact H|].
  exact (clear_sub_is_not_guarded path.find_device_state square_only
           no_clear_sub bare empty_world H).
Defined.
